(** * LibCSS: margin-{top,right,bottom,left} value parser and bytecode emitter

    Shallow embedding of [src/parse/properties/margin.c] and the properties
    of [parse_margin_side] and of its four per-side entry points. *)

From Stdlib Require Import ZArith List Bool Lia.
Import ListNotations.
Open Scope Z_scope.

(** ** C integer types *)

Definition uint8 (z : Z) : Z := z mod 2 ^ 8.
Definition uint16 (z : Z) : Z := z mod 2 ^ 16.
Definition uint32 (z : Z) : Z := z mod 2 ^ 32.

(** [sizeof(opv)] and [sizeof(unit)]: both are [uint32_t]. *)
Definition sizeof_opv : Z := 4.
Definition sizeof_unit : Z := 4.

(** Modelled from the spec: the typedef of [css_fixed] (the type of the local
    [length]) is not in margin.c; the wire layout gives the magnitude 32 bits,
    the same width as the unit code. *)
Definition sizeof_length : Z := 4.

(** ** Error codes

    margin.c names [CSS_OK], [CSS_NOMEM] and [CSS_INVALID]; [css_error] is the
    library-wide enumeration and has further members, which a collaborator
    could hand back and which [parse_margin_side] would pass on. *)
Inductive css_error : Set :=
| CSS_OK
| CSS_NOMEM
| CSS_BADPARM
| CSS_INVALID
| CSS_FILENOTFOUND
| CSS_NEEDDATA
| CSS_BADCHARSET
| CSS_EOF.

Definition css_error_eqb (a b : css_error) : bool :=
  match a, b with
  | CSS_OK, CSS_OK | CSS_NOMEM, CSS_NOMEM | CSS_BADPARM, CSS_BADPARM
  | CSS_INVALID, CSS_INVALID | CSS_FILENOTFOUND, CSS_FILENOTFOUND
  | CSS_NEEDDATA, CSS_NEEDDATA | CSS_BADCHARSET, CSS_BADCHARSET
  | CSS_EOF, CSS_EOF => true
  | _, _ => false
  end.

(** ** Tokens and the token vector *)

Inductive css_token_type : Set :=
| CSS_TOKEN_IDENT | CSS_TOKEN_ATKEYWORD | CSS_TOKEN_HASH | CSS_TOKEN_FUNCTION
| CSS_TOKEN_STRING | CSS_TOKEN_INVALID_STRING | CSS_TOKEN_URI
| CSS_TOKEN_UNICODE_RANGE | CSS_TOKEN_CHAR | CSS_TOKEN_NUMBER
| CSS_TOKEN_PERCENTAGE | CSS_TOKEN_DIMENSION | CSS_TOKEN_CDO | CSS_TOKEN_CDC
| CSS_TOKEN_S | CSS_TOKEN_COMMENT | CSS_TOKEN_INCLUDES | CSS_TOKEN_DASHMATCH
| CSS_TOKEN_PREFIXMATCH | CSS_TOKEN_SUFFIXMATCH | CSS_TOKEN_SUBSTRINGMATCH
| CSS_TOKEN_EOF.

Definition is_ident (t : css_token_type) : bool :=
  match t with CSS_TOKEN_IDENT => true | _ => false end.

(** An interned string is known by the address of its unique copy: two
    handles are compared with [==] on pointers. *)
Definition handle : Set := Z.

Record css_token : Set := {
  type : css_token_type;
  idata : handle;
  ilower : handle
}.

Definition parserutils_vector : Set := list css_token.

(** Modelled from the spec: the token vector belongs to libparserutils and is
    not in margin.c. [peek(pos) -> Option<Token>] has no side effect. *)
Definition parserutils_vector_peek (vector : parserutils_vector) (ctx : Z)
  : option css_token :=
  if ctx <? 0 then None else nth_error vector (Z.to_nat ctx).

(** Modelled from the spec: the token vector belongs to libparserutils and is
    not in margin.c. [advance(pos) -> pos'] consumes one token and returns the
    new position; at the end of the vector nothing is consumed. *)
Definition parserutils_vector_iterate (vector : parserutils_vector) (ctx : Z)
  : option css_token * Z :=
  match parserutils_vector_peek vector ctx with
  | Some token => (Some token, ctx + 1)
  | None => (None, ctx)
  end.

(** ** Styles, the stylesheet and the parsing context *)

(** A byte of a freshly allocated buffer holds no value until it is written. *)
Inductive memval : Set :=
| Undef
| Byte (b : Z).

Record css_style : Set := {
  bytecode : list memval;
  size : Z
}.

(** What a call can change: the iteration context [*ctx], the location
    [*result], and the requests the stylesheet's allocator has been sent. *)
Record world : Set := {
  ctx : Z;
  result : option css_style;
  alloc_log : list Z
}.

Definition set_ctx (n : Z) (w : world) : world :=
  {| ctx := n; result := result w; alloc_log := alloc_log w |}.

(** The allocator of a stylesheet answers a request from what it has been
    asked before and from the size asked for. *)
Record css_stylesheet : Type := {
  alloc : list Z -> Z -> bool
}.

Record css_language : Type := {
  sheet : css_stylesheet;
  strings : nat -> handle
}.

(** Modelled from the spec: [css_stylesheet_style_create] is not in margin.c.
    It requests a buffer of exactly [len] bytes from the buffer allocator; if
    allocation fails it reports memory exhaustion and [*result] is not
    written; otherwise [*result] is a fresh style of [len] bytes. *)
Definition css_stylesheet_style_create (s : css_stylesheet) (len : Z)
    (w : world) : css_error * world :=
  let asked := alloc_log w ++ [len] in
  if alloc s (alloc_log w) len then
    (CSS_OK,
     {| ctx := ctx w;
        result := Some {| bytecode := repeat Undef (Z.to_nat len);
                          size := len |};
        alloc_log := asked |})
  else
    (CSS_NOMEM,
     {| ctx := ctx w; result := result w; alloc_log := asked |}).

(** ** Undefined behaviour and [memcpy] *)

Definition bind {A B : Type} (m : option A) (k : A -> option B) : option B :=
  match m with
  | Some a => k a
  | None => None
  end.

Notation "x <- m ;; k" := (bind m (fun x => k))
  (at level 61, m at next level, right associativity).

(** [memcpy(dst + off, src, n)]: a copy that leaves the buffer has no defined
    behaviour ([None]). *)
Definition memcpy (dst : list memval) (off : Z) (src : list Z)
  : option (list memval) :=
  let n := Z.of_nat (List.length src) in
  if (0 <=? off) && (off + n <=? Z.of_nat (List.length dst)) then
    Some (firstn (Z.to_nat off) dst ++ map Byte src
            ++ skipn (Z.to_nat (off + n)) dst)
  else None.

(** ** What margin.c takes from its headers and from utils.c *)

Record unit_result : Set := {
  u_error : css_error;
  u_ctx : Z;
  u_length : Z;
  u_unit : Z
}.

Class Collaborators : Type := {
  (* bytecode/bytecode.h *)
  FLAG_INHERIT : Z;
  UNIT_PX : Z;
  UNIT_ANGLE : Z;
  UNIT_TIME : Z;
  UNIT_FREQ : Z;
  buildOPV : Z -> Z -> Z -> Z;
  (* bytecode/opcodes.h *)
  CSS_PROP_MARGIN_BOTTOM : Z;
  CSS_PROP_MARGIN_LEFT : Z;
  CSS_PROP_MARGIN_RIGHT : Z;
  CSS_PROP_MARGIN_TOP : Z;
  MARGIN_SET : Z;
  MARGIN_AUTO : Z;
  (* parse/propstrings.h: indices into c->strings *)
  INHERIT : nat;
  AUTO : nat;
  (* parse/properties/utils.h: the unit sub-parser; it is given [*ctx] and
     the default unit and hands back its error, the new [*ctx], and what it
     stored through [&length] and [&unit] *)
  parse_unit_specifier :
    css_language -> parserutils_vector -> Z -> Z -> unit_result;
  (* byte order of the machine: [memcpy] copies object representations *)
  big_endian : bool
}.

(** The locals of [parse_margin_side] that survive the grammar decision. *)
Module L.
Record t : Set := { flags : Z; value : Z; length : Z; unit : Z }.
End L.

(** ** One set of collaborators, to run the parser on examples *)

Definition ex_buildOPV (opcode flags value : Z) : Z :=
  Z.lor (Z.land opcode 0x3ff)
        (Z.lor (Z.shiftl flags 10) (Z.shiftl (Z.land value 0x3fff) 18)).

(** A unit sub-parser that knows two dimensions, [10px] (interned at 3000)
    and [5deg] (interned at 3001), and fails on everything else. Lengths are
    fixed point with ten fractional bits. *)
Definition ex_parse_unit_specifier (c : css_language)
    (vector : parserutils_vector) (ctx default_unit : Z) : unit_result :=
  let invalid :=
    {| u_error := CSS_INVALID; u_ctx := ctx; u_length := 0; u_unit := 0 |} in
  match parserutils_vector_peek vector ctx with
  | Some token =>
    match type token with
    | CSS_TOKEN_DIMENSION =>
      if idata token =? 3000 then
        {| u_error := CSS_OK; u_ctx := ctx + 1;
           u_length := 10 * 1024; u_unit := 0 |}
      else if idata token =? 3001 then
        {| u_error := CSS_OK; u_ctx := ctx + 1;
           u_length := 5 * 1024; u_unit := 512 |}
      else invalid
    | _ => invalid
    end
  | None => invalid
  end.

Definition ex_collaborators : Collaborators :=
  {| FLAG_INHERIT := 2;
     UNIT_PX := 0;
     UNIT_ANGLE := 512;
     UNIT_TIME := 1024;
     UNIT_FREQ := 2048;
     buildOPV := ex_buildOPV;
     CSS_PROP_MARGIN_BOTTOM := 0x33;
     CSS_PROP_MARGIN_LEFT := 0x34;
     CSS_PROP_MARGIN_RIGHT := 0x35;
     CSS_PROP_MARGIN_TOP := 0x36;
     MARGIN_SET := 0x80;
     MARGIN_AUTO := 0;
     INHERIT := 0%nat;
     AUTO := 1%nat;
     parse_unit_specifier := ex_parse_unit_specifier;
     big_endian := false |}.

Definition ex_strings (k : nat) : handle :=
  match k with
  | 0%nat => 1000
  | 1%nat => 1001
  | _ => 0
  end.

(** A stylesheet whose allocator never refuses. *)
Definition ex_roomy : css_language :=
  {| sheet := {| alloc := fun _ _ => true |}; strings := ex_strings |}.

(** A stylesheet whose allocator has room for a single style. *)
Definition ex_tight : css_language :=
  {| sheet := {| alloc := fun asked _ =>
                   match asked with [] => true | _ => false end |};
     strings := ex_strings |}.

Definition ex_inherit : css_token :=
  {| type := CSS_TOKEN_IDENT; idata := 2000; ilower := 1000 |}.
Definition ex_auto : css_token :=
  {| type := CSS_TOKEN_IDENT; idata := 2001; ilower := 1001 |}.
Definition ex_none : css_token :=
  {| type := CSS_TOKEN_IDENT; idata := 2002; ilower := 1002 |}.
Definition ex_10px : css_token :=
  {| type := CSS_TOKEN_DIMENSION; idata := 3000; ilower := 3000 |}.
Definition ex_5deg : css_token :=
  {| type := CSS_TOKEN_DIMENSION; idata := 3001; ilower := 3001 |}.

(** The caller's state before a first call: [*ctx] at [n], [*result] not yet
    pointing anywhere, nothing allocated. *)
Definition ex_world (n : Z) : world :=
  {| ctx := n; result := None; alloc_log := [] |}.

Section Margin.

Context {E : Collaborators}.

(** Object representation of a 32-bit object. *)
Definition le_bytes (z : Z) : list Z :=
  [z mod 256; (z / 2 ^ 8) mod 256; (z / 2 ^ 16) mod 256; (z / 2 ^ 24) mod 256].

Definition object32 (z : Z) : list Z :=
  if big_endian then rev (le_bytes (uint32 z)) else le_bytes (uint32 z).

(** [token->type == CSS_TOKEN_IDENT && token->ilower == c->strings[k]] *)
Definition ident_is (c : css_language) (token : css_token) (k : nat) : bool :=
  is_ident (type token) && (ilower token =? strings c k).

(** [unit & UNIT_ANGLE || unit & UNIT_TIME || unit & UNIT_FREQ] *)
Definition not_spatial (unit : Z) : bool :=
  negb (Z.land unit UNIT_ANGLE =? 0)
  || negb (Z.land unit UNIT_TIME =? 0)
  || negb (Z.land unit UNIT_FREQ =? 0).

(** Lines 122-161 of margin.c: the peek and the three grammar alternatives.
    [inl] is an early return, [inr] falls through to line 163. *)
Definition parse_margin_side_value (c : css_language)
    (vector : parserutils_vector) (w : world)
  : (css_error * world) + (world * L.t) :=
  let orig_ctx := ctx w in
  match parserutils_vector_peek vector (ctx w) with
  | None => inl (CSS_INVALID, set_ctx orig_ctx w)
  | Some token =>
    if ident_is c token INHERIT then
      let w := set_ctx (snd (parserutils_vector_iterate vector (ctx w))) w in
      inr (w, {| L.flags := uint8 FLAG_INHERIT; L.value := 0;
                 L.length := 0; L.unit := 0 |})
    else if ident_is c token AUTO then
      let w := set_ctx (snd (parserutils_vector_iterate vector (ctx w))) w in
      inr (w, {| L.flags := 0; L.value := uint16 MARGIN_AUTO;
                 L.length := 0; L.unit := 0 |})
    else
      let r := parse_unit_specifier c vector (ctx w) UNIT_PX in
      let w := set_ctx (u_ctx r) w in
      if negb (css_error_eqb (u_error r) CSS_OK) then
        inl (u_error r, set_ctx orig_ctx w)
      else if not_spatial (u_unit r) then
        inl (CSS_INVALID, set_ctx orig_ctx w)
      else
        inr (w,
             {| L.flags := 0; L.value := uint16 MARGIN_SET;
                L.length := u_length r; L.unit := u_unit r |})
  end.

(** Lines 163-185 of margin.c: header word, size, allocation, copy. *)
Definition parse_margin_side_emit (c : css_language) (op : Z) (orig_ctx : Z)
    (w : world) (l : L.t) : option (css_error * world) :=
  let opv := uint32 (buildOPV op (L.flags l) (L.value l)) in
  let required_size := sizeof_opv in
  let required_size :=
    if (Z.land (L.flags l) FLAG_INHERIT =? 0) && (L.value l =? MARGIN_SET)
    then required_size + (sizeof_length + sizeof_unit)
    else required_size in
  let '(error, w) := css_stylesheet_style_create (sheet c) required_size w in
  if negb (css_error_eqb error CSS_OK) then
    Some (error, set_ctx orig_ctx w)
  else
    style <- result w ;;
    b <- memcpy (bytecode style) 0 (object32 opv) ;;
    b <- (if (Z.land (L.flags l) FLAG_INHERIT =? 0)
             && (L.value l =? MARGIN_SET)
          then
            b <- memcpy b sizeof_opv (object32 (L.length l)) ;;
            memcpy b (sizeof_opv + sizeof_length) (object32 (L.unit l))
          else Some b) ;;
    Some (CSS_OK,
          {| ctx := ctx w;
             result := Some {| bytecode := b; size := size style |};
             alloc_log := alloc_log w |}).

(** [parse_margin_side(c, vector, ctx, op, result)]; [None] would be a run
    with no defined behaviour. *)
Definition parse_margin_side (c : css_language) (vector : parserutils_vector)
    (op : Z) (w : world) : option (css_error * world) :=
  let orig_ctx := ctx w in
  match parse_margin_side_value c vector w with
  | inl early => Some early
  | inr (w, l) => parse_margin_side_emit c (uint16 op) orig_ctx w l
  end.

Definition parse_margin_bottom (c : css_language)
    (vector : parserutils_vector) (w : world) : option (css_error * world) :=
  parse_margin_side c vector CSS_PROP_MARGIN_BOTTOM w.

Definition parse_margin_left (c : css_language)
    (vector : parserutils_vector) (w : world) : option (css_error * world) :=
  parse_margin_side c vector CSS_PROP_MARGIN_LEFT w.

Definition parse_margin_right (c : css_language)
    (vector : parserutils_vector) (w : world) : option (css_error * world) :=
  parse_margin_side c vector CSS_PROP_MARGIN_RIGHT w.

Definition parse_margin_top (c : css_language)
    (vector : parserutils_vector) (w : world) : option (css_error * world) :=
  parse_margin_side c vector CSS_PROP_MARGIN_TOP w.

(** ** The instruction as a function of the locals *)

(** [(flags & FLAG_INHERIT) == false && value == MARGIN_SET] *)
Definition payload_present (l : L.t) : bool :=
  (Z.land (L.flags l) FLAG_INHERIT =? 0) && (L.value l =? MARGIN_SET).

Definition required_size (l : L.t) : Z :=
  if payload_present l then sizeof_opv + (sizeof_length + sizeof_unit)
  else sizeof_opv.

Definition header (op : Z) (l : L.t) : list Z :=
  object32 (uint32 (buildOPV op (L.flags l) (L.value l))).

Definition instruction (op : Z) (l : L.t) : list Z :=
  header op l
  ++ (if payload_present l
      then object32 (L.length l) ++ object32 (L.unit l) else []).

(** ** The grammar alternatives *)

Inductive branch : Set :=
| Inherit
| Auto
| Quantity.

(** [took c token r l b]: on the peeked [token], with [r] what the unit
    sub-parser answers, alternative [b] of the [if / else if / else] of lines
    139-161 is the one that runs to its end, and [l] is what it leaves in the
    locals (the others keep their initial 0). *)
Definition took (c : css_language) (token : css_token) (r : unit_result)
    (l : L.t) (b : branch) : Prop :=
  match b with
  | Inherit =>
    ident_is c token INHERIT = true
    /\ l = {| L.flags := uint8 FLAG_INHERIT; L.value := 0;
              L.length := 0; L.unit := 0 |}
  | Auto =>
    ident_is c token INHERIT = false /\ ident_is c token AUTO = true
    /\ l = {| L.flags := 0; L.value := uint16 MARGIN_AUTO;
              L.length := 0; L.unit := 0 |}
  | Quantity =>
    ident_is c token INHERIT = false /\ ident_is c token AUTO = false
    /\ u_error r = CSS_OK /\ not_spatial (u_unit r) = false
    /\ l = {| L.flags := 0; L.value := uint16 MARGIN_SET;
              L.length := u_length r; L.unit := u_unit r |}
  end.

(** What two sides can share of an outcome: everything but the four bytes of
    the header word. *)
Definition beyond_header (r : option (css_error * world))
  : option (css_error * Z * list Z * option (list memval * Z)) :=
  match r with
  | None => None
  | Some (e, w) =>
    Some (e, ctx w, alloc_log w,
          match result w with
          | None => None
          | Some s => Some (skipn 4 (bytecode s), size s)
          end)
  end.

(** ** Basic facts *)

Lemma set_ctx_same (w : world) : set_ctx (ctx w) w = w.
Proof. destruct w; reflexivity. Qed.

Lemma set_ctx_restore (n : Z) (w : world) : set_ctx (ctx w) (set_ctx n w) = w.
Proof. destruct w; reflexivity. Qed.

Lemma css_error_eqb_eq (a b : css_error) :
  css_error_eqb a b = true <-> a = b.
Proof. split; [destruct a, b; simpl; congruence | intros ->; destruct b; reflexivity]. Qed.

Lemma css_error_not_ok (e : css_error) :
  negb (css_error_eqb e CSS_OK) = true <-> e <> CSS_OK.
Proof. destruct e; simpl; split; congruence. Qed.

Lemma object32_shape (z : Z) : exists a b c d, object32 z = [a; b; c; d].
Proof.
  unfold object32, le_bytes.
  destruct big_endian; cbn [rev app]; eauto.
Qed.

Lemma object32_length (z : Z) : List.length (object32 z) = 4%nat.
Proof. destruct (object32_shape z) as (a & b & c & d & ->); reflexivity. Qed.

Lemma required_size_cases (l : L.t) :
  required_size l = 4 \/ required_size l = 12.
Proof. unfold required_size; destruct (payload_present l); auto. Qed.

Lemma instruction_length (op : Z) (l : L.t) :
  Z.of_nat (List.length (instruction op l)) = required_size l.
Proof.
  unfold instruction, required_size, header.
  rewrite length_app, object32_length.
  destruct (payload_present l).
  - rewrite length_app, !object32_length. reflexivity.
  - reflexivity.
Qed.

(** The second half of [parse_margin_side] in closed form: one request of
    [required_size l] bytes, and on success a buffer that holds exactly the
    instruction. *)
Lemma parse_margin_side_emit_eq (c : css_language) (op o : Z) (w : world)
    (l : L.t) :
  parse_margin_side_emit c op o w l =
  if alloc (sheet c) (alloc_log w) (required_size l) then
    Some (CSS_OK,
          {| ctx := ctx w;
             result := Some {| bytecode := map Byte (instruction op l);
                               size := required_size l |};
             alloc_log := alloc_log w ++ [required_size l] |})
  else
    Some (CSS_NOMEM,
          {| ctx := o; result := result w;
             alloc_log := alloc_log w ++ [required_size l] |}).
Proof.
  unfold parse_margin_side_emit, css_stylesheet_style_create, instruction,
    header, required_size, payload_present.
  destruct ((Z.land (L.flags l) FLAG_INHERIT =? 0) && (L.value l =? MARGIN_SET));
    match goal with |- context [alloc ?s ?g ?n] => destruct (alloc s g n) end;
    cbn [negb css_error_eqb result bytecode size ctx alloc_log set_ctx bind];
    try reflexivity.
  - destruct (object32_shape (uint32 (buildOPV op (L.flags l) (L.value l))))
      as (a & b & d & e & ->).
    destruct (object32_shape (L.length l)) as (a1 & b1 & d1 & e1 & ->).
    destruct (object32_shape (L.unit l)) as (a2 & b2 & d2 & e2 & ->).
    reflexivity.
  - destruct (object32_shape (uint32 (buildOPV op (L.flags l) (L.value l))))
      as (a & b & d & e & ->).
    reflexivity.
Qed.

(** ** The two halves of [parse_margin_side] *)

Lemma parse_margin_side_value_inl (c : css_language)
    (vector : parserutils_vector) (w w1 : world) (e : css_error) :
  parse_margin_side_value c vector w = inl (e, w1) ->
  w1 = w /\ e <> CSS_OK
  /\ (parserutils_vector_peek vector (ctx w) = None /\ e = CSS_INVALID
      \/ exists token,
           parserutils_vector_peek vector (ctx w) = Some token
           /\ ident_is c token INHERIT = false
           /\ ident_is c token AUTO = false
           /\ let r := parse_unit_specifier c vector (ctx w) UNIT_PX in
              (u_error r <> CSS_OK /\ e = u_error r
               \/ u_error r = CSS_OK /\ not_spatial (u_unit r) = true
                  /\ e = CSS_INVALID)).
Proof.
  unfold parse_margin_side_value.
  destruct (parserutils_vector_peek vector (ctx w)) as [token|] eqn:Hpeek.
  - destruct (ident_is c token INHERIT) eqn:Hi; [discriminate|].
    destruct (ident_is c token AUTO) eqn:Ha; [discriminate|].
    destruct (negb (css_error_eqb
                (u_error (parse_unit_specifier c vector (ctx w) UNIT_PX))
                CSS_OK)) eqn:Herr.
    + intros [= <- <-]. rewrite set_ctx_restore.
      apply css_error_not_ok in Herr.
      repeat split; trivial. right. exists token. cbv zeta. auto 10.
    + apply negb_false_iff, css_error_eqb_eq in Herr.
      destruct (not_spatial _) eqn:Hu; [|discriminate].
      intros [= <- <-]. rewrite set_ctx_restore.
      repeat split; try discriminate. right. exists token. cbv zeta. auto 10.
  - intros [= <- <-]. rewrite set_ctx_same.
    repeat split; try discriminate. auto.
Qed.

Lemma parse_margin_side_value_inr (c : css_language)
    (vector : parserutils_vector) (w w1 : world) (l : L.t) :
  parse_margin_side_value c vector w = inr (w1, l) ->
  result w1 = result w /\ alloc_log w1 = alloc_log w
  /\ exists token b,
       parserutils_vector_peek vector (ctx w) = Some token
       /\ took c token (parse_unit_specifier c vector (ctx w) UNIT_PX) l b
       /\ ctx w1 = match b with
                   | Quantity =>
                     u_ctx (parse_unit_specifier c vector (ctx w) UNIT_PX)
                   | _ => ctx w + 1
                   end.
Proof.
  unfold parse_margin_side_value, parserutils_vector_iterate.
  destruct (parserutils_vector_peek vector (ctx w)) as [token|] eqn:Hpeek;
    [|discriminate].
  destruct (ident_is c token INHERIT) eqn:Hi.
  - intros [= <- <-]. cbn. repeat split.
    exists token, Inherit. cbn. auto.
  - destruct (ident_is c token AUTO) eqn:Ha.
    + intros [= <- <-]. cbn. repeat split.
      exists token, Auto. cbn. auto.
    + destruct (negb (css_error_eqb
                  (u_error (parse_unit_specifier c vector (ctx w) UNIT_PX))
                  CSS_OK)) eqn:Herr; [discriminate|].
      apply negb_false_iff, css_error_eqb_eq in Herr.
      destruct (not_spatial _) eqn:Hu; [discriminate|].
      intros [= <- <-]. cbn. repeat split.
      exists token, Quantity. cbn. auto 10.
Qed.

(** The first half reads the world only through [*ctx]. *)
Lemma parse_margin_side_value_ctx (c : css_language)
    (vector : parserutils_vector) (w1 w2 : world) :
  ctx w1 = ctx w2 ->
  match parse_margin_side_value c vector w1,
        parse_margin_side_value c vector w2 with
  | inl (e1, _), inl (e2, _) => e1 = e2
  | inr (a1, l1), inr (a2, l2) => l1 = l2 /\ ctx a1 = ctx a2
  | _, _ => False
  end.
Proof.
  intros Hctx. unfold parse_margin_side_value. rewrite <- Hctx.
  destruct (parserutils_vector_peek vector (ctx w1)) as [token|];
    [|reflexivity].
  destruct (ident_is c token INHERIT); [split; reflexivity|].
  destruct (ident_is c token AUTO); [split; reflexivity|].
  destruct (negb _); [reflexivity|].
  destruct (not_spatial _); [reflexivity|].
  split; reflexivity.
Qed.

Lemma parse_margin_side_eq (c : css_language) (vector : parserutils_vector)
    (op : Z) (w : world) :
  parse_margin_side c vector op w =
  match parse_margin_side_value c vector w with
  | inl early => Some early
  | inr (w1, l) =>
    if alloc (sheet c) (alloc_log w1) (required_size l) then
      Some (CSS_OK,
            {| ctx := ctx w1;
               result :=
                 Some {| bytecode := map Byte (instruction (uint16 op) l);
                         size := required_size l |};
               alloc_log := alloc_log w1 ++ [required_size l] |})
    else
      Some (CSS_NOMEM,
            {| ctx := ctx w; result := result w1;
               alloc_log := alloc_log w1 ++ [required_size l] |})
  end.
Proof.
  unfold parse_margin_side.
  destruct (parse_margin_side_value c vector w) as [early|[w1 l]];
    [reflexivity|].
  apply parse_margin_side_emit_eq.
Qed.

(** Every run of [parse_margin_side] is one of three: an early return with
    the world as it was, a refused allocation, or a style that holds the
    instruction. *)
Lemma parse_margin_side_inv (c : css_language) (vector : parserutils_vector)
    (op : Z) (w w' : world) (e : css_error) :
  parse_margin_side c vector op w = Some (e, w') ->
  (parse_margin_side_value c vector w = inl (e, w) /\ w' = w /\ e <> CSS_OK)
  \/ (exists w1 l,
        parse_margin_side_value c vector w = inr (w1, l)
        /\ alloc (sheet c) (alloc_log w) (required_size l) = false
        /\ e = CSS_NOMEM
        /\ w' = {| ctx := ctx w; result := result w;
                   alloc_log := alloc_log w ++ [required_size l] |})
  \/ (exists w1 l,
        parse_margin_side_value c vector w = inr (w1, l)
        /\ alloc (sheet c) (alloc_log w) (required_size l) = true
        /\ e = CSS_OK
        /\ w' = {| ctx := ctx w1;
                   result :=
                     Some {| bytecode := map Byte (instruction (uint16 op) l);
                             size := required_size l |};
                   alloc_log := alloc_log w ++ [required_size l] |}).
Proof.
  rewrite parse_margin_side_eq.
  destruct (parse_margin_side_value c vector w) as [[e0 w0]|[w1 l]] eqn:Hv.
  - intros [= <- <-].
    destruct (parse_margin_side_value_inl _ _ _ _ _ Hv) as (-> & Hne & _).
    left. auto.
  - destruct (parse_margin_side_value_inr _ _ _ _ _ Hv) as (Hr & Hl & _).
    rewrite Hr, Hl.
    destruct (alloc (sheet c) (alloc_log w) (required_size l)) eqn:Hal;
      intros [= <- <-]; [right; right | right; left];
      exists w1, l; auto.
Qed.

(** No run leaves defined behaviour: the call always returns an error code
    and a world. *)
Lemma parse_margin_side_returns (c : css_language)
    (vector : parserutils_vector) (op : Z) (w : world) :
  exists e w', parse_margin_side c vector op w = Some (e, w').
Proof.
  rewrite parse_margin_side_eq.
  destruct (parse_margin_side_value c vector w) as [[e0 w0]|[w1 l]]; eauto.
  destruct (alloc _ _ _); eauto.
Qed.

Lemma parse_margin_side_failure_ctx (c : css_language)
    (vector : parserutils_vector) (op : Z) (w w' : world) (e : css_error) :
  parse_margin_side c vector op w = Some (e, w') ->
  e <> CSS_OK -> ctx w' = ctx w.
Proof.
  intros H Hne.
  destruct (parse_margin_side_inv _ _ _ _ _ _ H)
    as [(_ & -> & _)|[(w1 & l & _ & _ & _ & ->)|(w1 & l & _ & _ & -> & _)]];
    try reflexivity.
  congruence.
Qed.

Lemma parse_margin_side_invalid_frame (c : css_language)
    (vector : parserutils_vector) (op : Z) (w w' : world) :
  parse_margin_side c vector op w = Some (CSS_INVALID, w') -> w' = w.
Proof.
  intros H.
  destruct (parse_margin_side_inv _ _ _ _ _ _ H)
    as [(_ & -> & _)|[(w1 & l & _ & _ & He & _)|(w1 & l & _ & _ & He & _)]];
    try reflexivity; discriminate.
Qed.

Lemma payload_present_iff (l : L.t) :
  payload_present l = true
  <-> Z.land (L.flags l) FLAG_INHERIT = 0 /\ L.value l = MARGIN_SET.
Proof.
  unfold payload_present.
  rewrite andb_true_iff, !Z.eqb_eq. reflexivity.
Qed.

Lemma not_spatial_iff (unit : Z) :
  not_spatial unit = true
  <-> Z.land unit UNIT_ANGLE <> 0 \/ Z.land unit UNIT_TIME <> 0
      \/ Z.land unit UNIT_FREQ <> 0.
Proof.
  unfold not_spatial.
  rewrite !orb_true_iff, !negb_true_iff, !Z.eqb_neq. tauto.
Qed.

Lemma land_uint8_self (z : Z) : Z.land (uint8 z) z = uint8 z.
Proof.
  unfold uint8. rewrite <- Z.land_ones by lia.
  rewrite (Z.land_comm z), <- Z.land_assoc, Z.land_diag. reflexivity.
Qed.

Lemma took_functional (c : css_language) (token : css_token)
    (r : unit_result) (l1 l2 : L.t) (b1 b2 : branch) :
  took c token r l1 b1 -> took c token r l2 b2 -> b1 = b2 /\ l1 = l2.
Proof.
  destruct b1, b2; cbn; intuition congruence.
Qed.

(** ** Properties of [parse_margin_side] and of the four entry points *)

(** C1. Whichever of [parse_margin_side], [parse_margin_top],
    [parse_margin_right], [parse_margin_bottom], [parse_margin_left] is
    called, on any token vector, position and opcode: if the call returns a
    failure, [*ctx] after the call is [*ctx] before it. *)
Theorem failure_restores_ctx (c : css_language) (vector : parserutils_vector)
    (op : Z) (w w' : world) (e : css_error) :
  parse_margin_side c vector op w = Some (e, w')
  \/ parse_margin_top c vector w = Some (e, w')
  \/ parse_margin_right c vector w = Some (e, w')
  \/ parse_margin_bottom c vector w = Some (e, w')
  \/ parse_margin_left c vector w = Some (e, w') ->
  e <> CSS_OK ->
  ctx w' = ctx w.
Proof.
  intros [H|[H|[H|[H|H]]]] Hne;
    exact (parse_margin_side_failure_ctx _ _ _ _ _ _ H Hne).
Qed.

(** C2. On every successful call the size asked of the allocator is
    [sizeof(opv)], plus [sizeof(length) + sizeof(unit)] exactly when the
    inherit flag is unset and [value == MARGIN_SET]; the style holds the
    header word, then (only in that case) the magnitude and the unit, every
    byte of the buffer is written and none lies outside it. *)
Theorem success_buffer_exact_size (c : css_language)
    (vector : parserutils_vector) (op : Z) (w w' : world) :
  parse_margin_side c vector op w = Some (CSS_OK, w') ->
  exists w1 l style,
    parse_margin_side_value c vector w = inr (w1, l)
    /\ result w' = Some style
    /\ alloc_log w' = alloc_log w ++ [size style]
    /\ (Z.land (L.flags l) FLAG_INHERIT = 0 /\ L.value l = MARGIN_SET ->
        size style = sizeof_opv + (sizeof_length + sizeof_unit)
        /\ bytecode style =
           map Byte (object32 (uint32 (buildOPV (uint16 op) (L.flags l)
                                                (L.value l)))
                     ++ object32 (L.length l) ++ object32 (L.unit l)))
    /\ (~ (Z.land (L.flags l) FLAG_INHERIT = 0 /\ L.value l = MARGIN_SET) ->
        size style = sizeof_opv
        /\ bytecode style =
           map Byte (object32 (uint32 (buildOPV (uint16 op) (L.flags l)
                                                (L.value l)))))
    /\ Z.of_nat (List.length (bytecode style)) = size style.
Proof.
  intros H.
  destruct (parse_margin_side_inv _ _ _ _ _ _ H)
    as [(_ & _ & Hne)|[(w1 & l & _ & _ & He & _)|(w1 & l & Hv & _ & _ & ->)]];
    [congruence | discriminate |].
  exists w1, l. eexists. split; [exact Hv|]. split; [reflexivity|].
  cbn [alloc_log size bytecode]. split; [reflexivity|].
  unfold instruction, required_size, header.
  pose proof (payload_present_iff l) as Hp.
  destruct (payload_present l).
  - split; [auto|]. split; [intros Hn; exfalso; apply Hn, Hp; reflexivity|].
    rewrite length_map, !length_app, !object32_length. reflexivity.
  - split; [intros Hy; apply Hp in Hy; discriminate|].
    split; [intros _; rewrite app_nil_r; auto|].
    rewrite length_map, !length_app, !object32_length. reflexivity.
Qed.

(** C3. When the quantity alternative is reached (a token is there and it is
    neither the [inherit] nor the [auto] identifier) and
    [parse_unit_specifier] succeeds with a unit that has an angle, time or
    frequency bit, [parse_margin_side] returns [CSS_INVALID] and leaves
    [*ctx] (and everything else) as it was on entry. *)
Theorem non_spatial_unit_rejected (c : css_language)
    (vector : parserutils_vector) (op : Z) (w : world) (token : css_token) :
  parserutils_vector_peek vector (ctx w) = Some token ->
  ident_is c token INHERIT = false ->
  ident_is c token AUTO = false ->
  u_error (parse_unit_specifier c vector (ctx w) UNIT_PX) = CSS_OK ->
  Z.land (u_unit (parse_unit_specifier c vector (ctx w) UNIT_PX)) UNIT_ANGLE
    <> 0
  \/ Z.land (u_unit (parse_unit_specifier c vector (ctx w) UNIT_PX)) UNIT_TIME
     <> 0
  \/ Z.land (u_unit (parse_unit_specifier c vector (ctx w) UNIT_PX)) UNIT_FREQ
     <> 0 ->
  parse_margin_side c vector op w = Some (CSS_INVALID, w).
Proof.
  intros Hpeek Hi Ha Hok Hunit.
  apply not_spatial_iff in Hunit.
  rewrite parse_margin_side_eq. unfold parse_margin_side_value.
  rewrite Hpeek, Hi, Ha, Hok, Hunit. cbn [css_error_eqb negb].
  rewrite set_ctx_restore. reflexivity.
Qed.

(** C4. On every input at most one of the three alternatives inherit, auto,
    quantity runs. A successful call took exactly one of them, its locals are
    that alternative's alone, the style holds the instruction built from
    them, and an instruction whose flags have the inherit bit carries the
    header word only: no magnitude and unit follow. A style longer than the
    header word comes from the quantity alternative, unless the constants of
    the headers coincide ([MARGIN_AUTO] with [MARGIN_SET], or [FLAG_INHERIT]
    and [MARGIN_SET] both 0 in the width of their variables). *)
Theorem grammar_branches_exclusive (c : css_language)
    (vector : parserutils_vector) (op : Z) (w w' : world) :
  parse_margin_side c vector op w = Some (CSS_OK, w') ->
  exists token l style,
    parserutils_vector_peek vector (ctx w) = Some token
    /\ (exists! b,
          took c token (parse_unit_specifier c vector (ctx w) UNIT_PX) l b)
    /\ result w' = Some style
    /\ bytecode style = map Byte (instruction (uint16 op) l)
    /\ (Z.land (L.flags l) FLAG_INHERIT <> 0 ->
        bytecode style = map Byte (header (uint16 op) l)
        /\ size style = sizeof_opv)
    /\ (size style <> sizeof_opv ->
        took c token (parse_unit_specifier c vector (ctx w) UNIT_PX) l
             Quantity
        \/ took c token (parse_unit_specifier c vector (ctx w) UNIT_PX) l
                Auto
           /\ uint16 MARGIN_AUTO = MARGIN_SET
        \/ took c token (parse_unit_specifier c vector (ctx w) UNIT_PX) l
                Inherit
           /\ uint8 FLAG_INHERIT = 0 /\ MARGIN_SET = 0).
Proof.
  intros H.
  destruct (parse_margin_side_inv _ _ _ _ _ _ H)
    as [(_ & _ & Hne)|[(w1 & l & _ & _ & He & _)|(w1 & l & Hv & _ & _ & ->)]];
    [congruence | discriminate |].
  destruct (parse_margin_side_value_inr _ _ _ _ _ Hv)
    as (_ & _ & token & b & Hpeek & Hb & _).
  exists token, l. eexists. split; [exact Hpeek|].
  split.
  { exists b. split; [exact Hb|].
    intros b' Hb'. exact (proj1 (took_functional _ _ _ _ _ _ _ Hb Hb')). }
  split; [reflexivity|]. cbn [bytecode size]. split; [reflexivity|].
  unfold instruction, required_size.
  pose proof (payload_present_iff l) as Hp.
  destruct (payload_present l) eqn:Hpp.
  - split.
    + intros Hflag. exfalso. apply Hflag, Hp. reflexivity.
    + intros _. destruct (proj1 Hp eq_refl) as (Hf & Hval).
      destruct b.
      * right; right. split; [exact Hb|].
        destruct Hb as (_ & ->). cbn in Hf, Hval.
        rewrite land_uint8_self in Hf. auto.
      * right; left. split; [exact Hb|].
        destruct Hb as (_ & _ & ->). cbn in Hval. auto.
      * left. exact Hb.
  - split.
    + intros _. rewrite app_nil_r. auto.
    + intros Hsz. congruence.
Qed.

(** C5. Given that the unit sub-parser, where it fails, fails with
    [CSS_INVALID] or [CSS_NOMEM], every failing call of [parse_margin_side]
    returns [CSS_INVALID] or [CSS_NOMEM]; and a failure of the unit
    sub-parser is returned as it is, whatever its kind. *)
Theorem failure_kinds (c : css_language) (vector : parserutils_vector)
    (op : Z) (w w' : world) (e : css_error) :
  (let eu := u_error (parse_unit_specifier c vector (ctx w) UNIT_PX) in
   eu = CSS_OK \/ eu = CSS_INVALID \/ eu = CSS_NOMEM) ->
  parse_margin_side c vector op w = Some (e, w') ->
  e <> CSS_OK ->
  (e = CSS_INVALID \/ e = CSS_NOMEM)
  /\ (forall token,
        parserutils_vector_peek vector (ctx w) = Some token ->
        ident_is c token INHERIT = false ->
        ident_is c token AUTO = false ->
        u_error (parse_unit_specifier c vector (ctx w) UNIT_PX) <> CSS_OK ->
        e = u_error (parse_unit_specifier c vector (ctx w) UNIT_PX)).
Proof.
  cbv zeta. intros Hkinds H Hne.
  destruct (parse_margin_side_inv _ _ _ _ _ _ H)
    as [(Hv & _ & _)|[(w1 & l & Hv & _ & -> & _)|(w1 & l & _ & _ & He & _)]];
    [| |congruence].
  - destruct (parse_margin_side_value_inl _ _ _ _ _ Hv)
      as (_ & _ & [(Hpeek & ->)|(token & Hpeek & Hi & Ha & Hr)]).
    + split; [auto|]. intros token Hp. congruence.
    + cbv zeta in Hr.
      destruct Hr as [(Hfail & ->)|(Hok & _ & ->)].
      * split; [tauto|]. intros; reflexivity.
      * split; [auto|]. intros; congruence.
  - split; [auto|]. intros token Hpeek Hi Ha Hfail. exfalso.
    destruct (parse_margin_side_value_inr _ _ _ _ _ Hv)
      as (_ & _ & token' & b & Hpeek' & Hb & _).
    assert (token' = token) as -> by congruence.
    destruct b; cbn in Hb; intuition congruence.
Qed.

(** C6. If the peeked token is an identifier whose interned lower-case
    handle is [c->strings[INHERIT]] and the allocator grants [sizeof(opv)]
    bytes, the call succeeds, [*ctx] has advanced by exactly one token, and
    the style is the header word alone, built with the inherit flag in its
    flags: [sizeof(opv)] bytes, no payload. ([FLAG_INHERIT] is taken to be a
    non-zero flag of the 8-bit [flags].) *)
Theorem inherit_keyword_compiles (c : css_language)
    (vector : parserutils_vector) (op : Z) (w : world) (token : css_token) :
  uint8 FLAG_INHERIT <> 0 ->
  parserutils_vector_peek vector (ctx w) = Some token ->
  type token = CSS_TOKEN_IDENT ->
  ilower token = strings c INHERIT ->
  alloc (sheet c) (alloc_log w) sizeof_opv = true ->
  parse_margin_side c vector op w =
  Some (CSS_OK,
        {| ctx := ctx w + 1;
           result :=
             Some {| bytecode :=
                       map Byte
                         (object32
                            (uint32 (buildOPV (uint16 op)
                                              (uint8 FLAG_INHERIT) 0)));
                     size := sizeof_opv |};
           alloc_log := alloc_log w ++ [sizeof_opv] |})
  /\ Z.land (uint8 FLAG_INHERIT) FLAG_INHERIT <> 0.
Proof.
  intros Hflag Hpeek Htype Hlow Halloc.
  assert (Hset : Z.land (uint8 FLAG_INHERIT) FLAG_INHERIT <> 0)
    by (rewrite land_uint8_self; exact Hflag).
  split; [|exact Hset].
  rewrite parse_margin_side_eq.
  unfold parse_margin_side_value, parserutils_vector_iterate, ident_is.
  rewrite Hpeek, Htype, Hlow, Z.eqb_refl. cbn [is_ident andb snd].
  unfold required_size, instruction, header, payload_present.
  cbn [L.flags L.value set_ctx alloc_log ctx result].
  apply Z.eqb_neq in Hset. rewrite Hset. cbn [andb].
  rewrite Halloc, app_nil_r. reflexivity.
Qed.

(** C7. If there is no token at the current position,
    [parse_margin_side] returns [CSS_INVALID] and [*ctx] (with everything
    else) is as it was. *)
Theorem no_token_invalid (c : css_language) (vector : parserutils_vector)
    (op : Z) (w : world) :
  parserutils_vector_peek vector (ctx w) = None ->
  parse_margin_side c vector op w = Some (CSS_INVALID, w).
Proof.
  intros Hpeek. rewrite parse_margin_side_eq.
  unfold parse_margin_side_value. rewrite Hpeek, set_ctx_same. reflexivity.
Qed.

(** C8, as amended. Two calls of [parse_margin_side] with the same parsing
    context, token vector, starting position and opcode, in which the
    allocator answers alike the one request that is made (if the grammar
    fails, none is made and nothing is asked of the allocator), both return,
    with the same error code and the same final [*ctx], and on success with
    byte-identical styles; what [*result] held and what was allocated before
    plays no part. *)
Theorem deterministic_given_allocator_answer (c : css_language)
    (vector : parserutils_vector) (op : Z) (w1 w2 : world) :
  ctx w1 = ctx w2 ->
  (forall a l,
     parse_margin_side_value c vector w1 = inr (a, l) ->
     alloc (sheet c) (alloc_log w1) (required_size l)
     = alloc (sheet c) (alloc_log w2) (required_size l)) ->
  exists e w1' w2',
    parse_margin_side c vector op w1 = Some (e, w1')
    /\ parse_margin_side c vector op w2 = Some (e, w2')
    /\ ctx w1' = ctx w2'
    /\ (e = CSS_OK -> result w1' = result w2' /\ result w1' <> None).
Proof.
  intros Hctx Halloc. rewrite !parse_margin_side_eq.
  pose proof (parse_margin_side_value_ctx c vector w1 w2 Hctx) as Hsame.
  destruct (parse_margin_side_value c vector w1) as [[e1 a1]|[a1 l1]] eqn:H1;
    destruct (parse_margin_side_value c vector w2) as [[e2 a2]|[a2 l2]] eqn:H2;
    try contradiction.
  - subst e2.
    destruct (parse_margin_side_value_inl _ _ _ _ _ H1) as (-> & Hne & _).
    destruct (parse_margin_side_value_inl _ _ _ _ _ H2) as (-> & _ & _).
    exists e1, w1, w2. repeat split; trivial; contradiction.
  - destruct Hsame as (<- & Hc).
    destruct (parse_margin_side_value_inr _ _ _ _ _ H1) as (_ & Hl1 & _).
    destruct (parse_margin_side_value_inr _ _ _ _ _ H2) as (_ & Hl2 & _).
    rewrite Hl1, Hl2, <- (Halloc a1 l1 eq_refl).
    destruct (alloc (sheet c) (alloc_log w1) (required_size l1)).
    + do 3 eexists. split; [reflexivity|]. split; [reflexivity|].
      cbn. repeat split; trivial; discriminate.
    + do 3 eexists. split; [reflexivity|]. split; [reflexivity|].
      cbn. split; [exact Hctx|discriminate].
Qed.

(** C9. Each of [parse_margin_top], [parse_margin_right],
    [parse_margin_bottom], [parse_margin_left] is [parse_margin_side] at its
    own opcode; and two opcodes give the same error code, final [*ctx],
    allocation requests, style size and payload bytes: the sides differ in
    the header word only. *)
Theorem four_sides_share_routine (c : css_language)
    (vector : parserutils_vector) (w : world) :
  parse_margin_top c vector w
  = parse_margin_side c vector CSS_PROP_MARGIN_TOP w
  /\ parse_margin_right c vector w
     = parse_margin_side c vector CSS_PROP_MARGIN_RIGHT w
  /\ parse_margin_bottom c vector w
     = parse_margin_side c vector CSS_PROP_MARGIN_BOTTOM w
  /\ parse_margin_left c vector w
     = parse_margin_side c vector CSS_PROP_MARGIN_LEFT w
  /\ forall op1 op2,
       beyond_header (parse_margin_side c vector op1 w)
       = beyond_header (parse_margin_side c vector op2 w).
Proof.
  repeat (split; [reflexivity|]).
  intros op1 op2. rewrite !parse_margin_side_eq.
  destruct (parse_margin_side_value c vector w) as [[e0 w0]|[w1 l]];
    [reflexivity|].
  destruct (alloc _ _ _); [|reflexivity].
  cbn. unfold instruction, header.
  destruct (object32_shape (uint32 (buildOPV (uint16 op1) (L.flags l)
                                             (L.value l))))
    as (a & b & d & e & ->).
  destruct (object32_shape (uint32 (buildOPV (uint16 op2) (L.flags l)
                                             (L.value l))))
    as (a' & b' & d' & e' & ->).
  reflexivity.
Qed.

(** C10. A call of [parse_margin_side], or of one of the four entry points,
    that returns [CSS_INVALID] has sent no request to the allocator and has
    left [*result] as the caller had it. *)
Theorem invalid_leaves_result_untouched (c : css_language)
    (vector : parserutils_vector) (op : Z) (w w' : world) :
  parse_margin_side c vector op w = Some (CSS_INVALID, w')
  \/ parse_margin_top c vector w = Some (CSS_INVALID, w')
  \/ parse_margin_right c vector w = Some (CSS_INVALID, w')
  \/ parse_margin_bottom c vector w = Some (CSS_INVALID, w')
  \/ parse_margin_left c vector w = Some (CSS_INVALID, w') ->
  result w' = result w /\ alloc_log w' = alloc_log w.
Proof.
  intros [H|[H|[H|[H|H]]]];
    rewrite (parse_margin_side_invalid_frame _ _ _ _ _ H); auto.
Qed.

(** ** Further properties: what is accepted, what is refused, what is written *)

Lemma parse_margin_side_value_took (c : css_language)
    (vector : parserutils_vector) (w : world) (token : css_token) (l : L.t)
    (b : branch) :
  parserutils_vector_peek vector (ctx w) = Some token ->
  took c token (parse_unit_specifier c vector (ctx w) UNIT_PX) l b ->
  parse_margin_side_value c vector w =
  inr (set_ctx match b with
               | Quantity =>
                 u_ctx (parse_unit_specifier c vector (ctx w) UNIT_PX)
               | _ => ctx w + 1
               end w, l).
Proof.
  intros Hpeek Hb.
  unfold parse_margin_side_value, parserutils_vector_iterate.
  rewrite Hpeek.
  destruct b; cbn in Hb.
  - destruct Hb as (Hi & ->). rewrite Hi. reflexivity.
  - destruct Hb as (Hi & Ha & ->). rewrite Hi, Ha. reflexivity.
  - destruct Hb as (Hi & Ha & Hok & Hu & ->). rewrite Hi, Ha, Hok, Hu.
    reflexivity.
Qed.

Lemma le_bytes_inj (a b : Z) :
  0 <= a < 2 ^ 32 -> 0 <= b < 2 ^ 32 -> le_bytes a = le_bytes b -> a = b.
Proof.
  unfold le_bytes. intros Ha Hb [= H0 H1 H2 H3].
  change (2 ^ 8) with 256 in *. change (2 ^ 16) with 65536 in *.
  change (2 ^ 24) with 16777216 in *. change (2 ^ 32) with 4294967296 in *.
  Z.div_mod_to_equations. lia.
Qed.

Lemma object32_inj (a b : Z) : object32 a = object32 b -> uint32 a = uint32 b.
Proof.
  unfold object32. intros H.
  assert (Hle : le_bytes (uint32 a) = le_bytes (uint32 b)).
  { destruct big_endian; [|exact H].
    apply (f_equal (@rev Z)) in H. rewrite !rev_involutive in H. exact H. }
  apply le_bytes_inj; [| |exact Hle];
    unfold uint32; apply Z.mod_pos_bound; reflexivity.
Qed.

(** X1. The [auto] keyword (lines 143-146, 163-177): an identifier that is not
    [inherit] and whose handle is [c->strings[AUTO]] consumes one token and
    gives a style of the header word alone, with no flag and the value
    [MARGIN_AUTO]. ([MARGIN_AUTO] and [MARGIN_SET] are taken to differ.) *)
Theorem auto_keyword_compiles (c : css_language)
    (vector : parserutils_vector) (op : Z) (w : world) (token : css_token) :
  uint16 MARGIN_AUTO <> MARGIN_SET ->
  parserutils_vector_peek vector (ctx w) = Some token ->
  ident_is c token INHERIT = false ->
  type token = CSS_TOKEN_IDENT ->
  ilower token = strings c AUTO ->
  alloc (sheet c) (alloc_log w) sizeof_opv = true ->
  parse_margin_side c vector op w =
  Some (CSS_OK,
        {| ctx := ctx w + 1;
           result :=
             Some {| bytecode :=
                       map Byte
                         (object32
                            (uint32 (buildOPV (uint16 op) 0
                                              (uint16 MARGIN_AUTO))));
                     size := sizeof_opv |};
           alloc_log := alloc_log w ++ [sizeof_opv] |}).
Proof.
  intros Hconst Hpeek Hi Htype Hlow Halloc.
  rewrite parse_margin_side_eq.
  unfold parse_margin_side_value, parserutils_vector_iterate.
  rewrite Hpeek, Hi. unfold ident_is.
  rewrite Htype, Hlow, Z.eqb_refl. cbn [is_ident andb snd].
  unfold required_size, instruction, header, payload_present.
  cbn [L.flags L.value set_ctx alloc_log ctx result].
  apply Z.eqb_neq in Hconst. rewrite Hconst, andb_false_r.
  rewrite Halloc, app_nil_r. reflexivity.
Qed.

(** X2. A length or percentage (lines 148-160, 163-183): on a token that is
    neither keyword, when the unit sub-parser succeeds with a unit free of
    angle, time and frequency bits, the call succeeds, [*ctx] is where the
    sub-parser left it, and the style is twelve bytes: the header word with
    no flag and the value [MARGIN_SET], then the magnitude, then the unit.
    ([MARGIN_SET] is taken to fit the 16-bit [value].) *)
Theorem quantity_compiles (c : css_language) (vector : parserutils_vector)
    (op : Z) (w : world) (token : css_token) :
  uint16 MARGIN_SET = MARGIN_SET ->
  parserutils_vector_peek vector (ctx w) = Some token ->
  ident_is c token INHERIT = false ->
  ident_is c token AUTO = false ->
  u_error (parse_unit_specifier c vector (ctx w) UNIT_PX) = CSS_OK ->
  Z.land (u_unit (parse_unit_specifier c vector (ctx w) UNIT_PX)) UNIT_ANGLE
    = 0 ->
  Z.land (u_unit (parse_unit_specifier c vector (ctx w) UNIT_PX)) UNIT_TIME
    = 0 ->
  Z.land (u_unit (parse_unit_specifier c vector (ctx w) UNIT_PX)) UNIT_FREQ
    = 0 ->
  alloc (sheet c) (alloc_log w) (sizeof_opv + (sizeof_length + sizeof_unit))
    = true ->
  let r := parse_unit_specifier c vector (ctx w) UNIT_PX in
  parse_margin_side c vector op w =
  Some (CSS_OK,
        {| ctx := u_ctx r;
           result :=
             Some {| bytecode :=
                       map Byte
                         (object32
                            (uint32 (buildOPV (uint16 op) 0
                                              (uint16 MARGIN_SET)))
                          ++ object32 (u_length r) ++ object32 (u_unit r));
                     size := sizeof_opv + (sizeof_length + sizeof_unit) |};
           alloc_log :=
             alloc_log w ++ [sizeof_opv + (sizeof_length + sizeof_unit)] |}).
Proof.
  intros Hconst Hpeek Hi Ha Hok Hang Htime Hfreq Halloc r.
  rewrite parse_margin_side_eq.
  unfold parse_margin_side_value.
  rewrite Hpeek, Hi, Ha, Hok. cbn [css_error_eqb negb].
  unfold not_spatial. rewrite Hang, Htime, Hfreq. cbn [Z.eqb negb orb].
  unfold required_size, instruction, header, payload_present.
  cbn [L.flags L.value L.length L.unit set_ctx alloc_log ctx result].
  cbn [Z.land]. rewrite Hconst, !Z.eqb_refl. cbn [andb].
  rewrite Halloc. reflexivity.
Qed.

(** X3. What [parse_margin_side] accepts: it returns [CSS_OK] exactly when there
    is a token on which one of the three alternatives runs to its end and
    the allocator grants the size of the instruction. *)
Theorem accepted_iff (c : css_language) (vector : parserutils_vector)
    (op : Z) (w : world) :
  (exists w', parse_margin_side c vector op w = Some (CSS_OK, w'))
  <-> exists token l b,
        parserutils_vector_peek vector (ctx w) = Some token
        /\ took c token (parse_unit_specifier c vector (ctx w) UNIT_PX) l b
        /\ alloc (sheet c) (alloc_log w) (required_size l) = true.
Proof.
  split.
  - intros (w' & H).
    destruct (parse_margin_side_inv _ _ _ _ _ _ H)
      as [(_ & _ & Hne)|[(w1 & l & _ & _ & He & _)|(w1 & l & Hv & Hal & _)]];
      [congruence | discriminate |].
    destruct (parse_margin_side_value_inr _ _ _ _ _ Hv)
      as (_ & _ & token & b & Hpeek & Hb & _).
    exists token, l, b. auto.
  - intros (token & l & b & Hpeek & Hb & Hal).
    rewrite parse_margin_side_eq,
      (parse_margin_side_value_took _ _ _ _ _ _ Hpeek Hb).
    cbn [set_ctx alloc_log]. rewrite Hal. eauto.
Qed.

(** X4. What [parse_margin_side] calls invalid: it returns [CSS_INVALID] exactly
    when there is no token, or the token is neither keyword and the unit
    sub-parser either fails with [CSS_INVALID] or succeeds with an angle,
    time or frequency unit. *)
Theorem invalid_iff (c : css_language) (vector : parserutils_vector)
    (op : Z) (w : world) :
  (exists w', parse_margin_side c vector op w = Some (CSS_INVALID, w'))
  <-> parserutils_vector_peek vector (ctx w) = None
      \/ exists token,
           parserutils_vector_peek vector (ctx w) = Some token
           /\ ident_is c token INHERIT = false
           /\ ident_is c token AUTO = false
           /\ let r := parse_unit_specifier c vector (ctx w) UNIT_PX in
              (u_error r = CSS_INVALID
               \/ u_error r = CSS_OK /\ not_spatial (u_unit r) = true).
Proof.
  split.
  - intros (w' & H).
    destruct (parse_margin_side_inv _ _ _ _ _ _ H)
      as [(Hv & _ & _)|[(w1 & l & _ & _ & He & _)|(w1 & l & _ & _ & He & _)]];
      [| discriminate | discriminate].
    destruct (parse_margin_side_value_inl _ _ _ _ _ Hv)
      as (_ & _ & [(Hpeek & _)|(token & Hpeek & Hi & Ha & Hr)]);
      [left; exact Hpeek|].
    right. exists token. cbv zeta in Hr |- *.
    repeat (split; [assumption|]).
    destruct Hr as [(_ & Heq)|(Hok & Hu & _)]; auto.
  - intros [Hpeek|(token & Hpeek & Hi & Ha & Hr)];
      rewrite parse_margin_side_eq; unfold parse_margin_side_value;
      rewrite Hpeek.
    + eauto.
    + rewrite Hi, Ha. cbv zeta in Hr |- *.
      destruct Hr as [Hinv|(Hok & Hu)].
      * rewrite Hinv. cbn [css_error_eqb negb]. eauto.
      * rewrite Hok, Hu. cbn [css_error_eqb negb]. eauto.
Qed.

(** X5. A refused allocation (lines 170-174): when an alternative has run to
    its end and the allocator refuses the instruction's size, the call
    returns [CSS_NOMEM], the tokens it had consumed are given back ([*ctx] as
    on entry) and [*result] is as the caller had it. *)
Theorem refused_allocation_restores (c : css_language)
    (vector : parserutils_vector) (op : Z) (w : world) (token : css_token)
    (l : L.t) (b : branch) :
  parserutils_vector_peek vector (ctx w) = Some token ->
  took c token (parse_unit_specifier c vector (ctx w) UNIT_PX) l b ->
  alloc (sheet c) (alloc_log w) (required_size l) = false ->
  parse_margin_side c vector op w =
  Some (CSS_NOMEM,
        {| ctx := ctx w; result := result w;
           alloc_log := alloc_log w ++ [required_size l] |}).
Proof.
  intros Hpeek Hb Hal.
  rewrite parse_margin_side_eq,
    (parse_margin_side_value_took _ _ _ _ _ _ Hpeek Hb).
  cbn [set_ctx alloc_log result]. rewrite Hal. reflexivity.
Qed.

(** X6. The allocator is asked at most once per call, for 4 or for 12 bytes: a
    call that ends before line 170 asks nothing and fails; a call that
    reaches it asks once and returns [CSS_OK] or [CSS_NOMEM]. *)
Theorem at_most_one_request (c : css_language) (vector : parserutils_vector)
    (op : Z) (w w' : world) (e : css_error) :
  parse_margin_side c vector op w = Some (e, w') ->
  (alloc_log w' = alloc_log w /\ e <> CSS_OK)
  \/ exists n,
       (n = 4 \/ n = 12)
       /\ alloc_log w' = alloc_log w ++ [n]
       /\ (e = CSS_OK \/ e = CSS_NOMEM).
Proof.
  intros H.
  destruct (parse_margin_side_inv _ _ _ _ _ _ H)
    as [(_ & -> & Hne)|[(w1 & l & _ & _ & -> & ->)|(w1 & l & _ & _ & -> & ->)]].
  - left. auto.
  - right. exists (required_size l). cbn [alloc_log].
    pose proof (required_size_cases l). auto.
  - right. exists (required_size l). cbn [alloc_log].
    pose proof (required_size_cases l). auto.
Qed.

(** X7. The keywords are read off one token: two vectors that hold the same
    [inherit] or [auto] identifier at the current position give the same
    outcome, whatever else they hold. *)
Theorem keyword_reads_one_token (c : css_language)
    (v1 v2 : parserutils_vector) (op : Z) (w : world) (token : css_token) :
  parserutils_vector_peek v1 (ctx w) = Some token ->
  parserutils_vector_peek v2 (ctx w) = Some token ->
  ident_is c token INHERIT = true \/ ident_is c token AUTO = true ->
  parse_margin_side c v1 op w = parse_margin_side c v2 op w.
Proof.
  intros H1 H2 Hkw. rewrite !parse_margin_side_eq.
  unfold parse_margin_side_value, parserutils_vector_iterate.
  rewrite H1, H2.
  destruct (ident_is c token INHERIT); [reflexivity|].
  destruct Hkw as [Hkw|Hkw]; [discriminate|]. rewrite Hkw. reflexivity.
Qed.

(** X8. Whatever the failure, [*result] is as the caller had it: the style is
    stored only by a call that returns [CSS_OK]. *)
Theorem failure_keeps_result (c : css_language) (vector : parserutils_vector)
    (op : Z) (w w' : world) (e : css_error) :
  parse_margin_side c vector op w = Some (e, w') ->
  e <> CSS_OK ->
  result w' = result w.
Proof.
  intros H Hne.
  destruct (parse_margin_side_inv _ _ _ _ _ _ H)
    as [(_ & -> & _)|[(w1 & l & _ & _ & _ & ->)|(w1 & l & _ & _ & -> & _)]];
    try reflexivity.
  congruence.
Qed.

Lemma instruction_inj (op1 op2 : Z) (l1 l2 : L.t) :
  instruction op1 l1 = instruction op2 l2 ->
  uint32 (buildOPV op1 (L.flags l1) (L.value l1))
  = uint32 (buildOPV op2 (L.flags l2) (L.value l2))
  /\ payload_present l1 = payload_present l2
  /\ (payload_present l1 = true ->
      uint32 (L.length l1) = uint32 (L.length l2)
      /\ uint32 (L.unit l1) = uint32 (L.unit l2)).
Proof.
  unfold instruction, header. intros H.
  destruct (object32_shape (uint32 (buildOPV op1 (L.flags l1) (L.value l1))))
    as (a1 & b1 & c1 & d1 & E1).
  destruct (object32_shape (uint32 (buildOPV op2 (L.flags l2) (L.value l2))))
    as (a2 & b2 & c2 & d2 & E2).
  destruct (object32_shape (L.length l1)) as (e1 & f1 & g1 & h1 & EL1).
  destruct (object32_shape (L.length l2)) as (e2 & f2 & g2 & h2 & EL2).
  destruct (object32_shape (L.unit l1)) as (i1 & j1 & k1 & m1 & EU1).
  destruct (object32_shape (L.unit l2)) as (i2 & j2 & k2 & m2 & EU2).
  rewrite E1, E2, EL1, EL2, EU1, EU2 in H.
  assert (Hidem : forall z, uint32 (uint32 z) = uint32 z)
    by (intros z; unfold uint32; apply Z.mod_mod; discriminate).
  destruct (payload_present l1), (payload_present l2); cbn in H;
    try discriminate; injection H as; subst.
  - rewrite <- E2 in E1. rewrite <- EL2 in EL1. rewrite <- EU2 in EU1.
    apply object32_inj in E1, EL1, EU1. rewrite !Hidem in E1. auto.
  - rewrite <- E2 in E1. apply object32_inj in E1. rewrite !Hidem in E1.
    repeat split; trivial; discriminate.
Qed.

(** X9. The copy loses nothing: when two successful calls leave the same style,
    their header words are the same, both wrote a payload or neither did,
    and a payload has the same magnitude and unit (as 32-bit objects). *)
Theorem equal_styles_equal_instructions (c1 c2 : css_language)
    (v1 v2 : parserutils_vector) (op1 op2 : Z) (w1 w2 w1' w2' a1 a2 : world)
    (l1 l2 : L.t) :
  parse_margin_side c1 v1 op1 w1 = Some (CSS_OK, w1') ->
  parse_margin_side c2 v2 op2 w2 = Some (CSS_OK, w2') ->
  parse_margin_side_value c1 v1 w1 = inr (a1, l1) ->
  parse_margin_side_value c2 v2 w2 = inr (a2, l2) ->
  result w1' = result w2' ->
  uint32 (buildOPV (uint16 op1) (L.flags l1) (L.value l1))
  = uint32 (buildOPV (uint16 op2) (L.flags l2) (L.value l2))
  /\ ((Z.land (L.flags l1) FLAG_INHERIT =? 0) && (L.value l1 =? MARGIN_SET)
      = (Z.land (L.flags l2) FLAG_INHERIT =? 0) && (L.value l2 =? MARGIN_SET))
  /\ ((Z.land (L.flags l1) FLAG_INHERIT =? 0) && (L.value l1 =? MARGIN_SET)
      = true ->
      uint32 (L.length l1) = uint32 (L.length l2)
      /\ uint32 (L.unit l1) = uint32 (L.unit l2)).
Proof.
  intros H1 H2 Hv1 Hv2 Hres.
  rewrite parse_margin_side_eq, Hv1 in H1.
  rewrite parse_margin_side_eq, Hv2 in H2.
  destruct (alloc _ _ _); [|discriminate].
  destruct (alloc _ _ _); [|discriminate].
  injection H1 as <-. injection H2 as <-. cbn [result] in Hres.
  injection Hres as Hbytes _.
  apply (instruction_inj (uint16 op1) (uint16 op2) l1 l2).
  revert Hbytes. generalize (instruction (uint16 op1) l1).
  generalize (instruction (uint16 op2) l2).
  intros y x. revert y.
  induction x as [|a x IH]; intros [|b y] Hxy; try discriminate;
    [reflexivity|].
  injection Hxy as -> Hxy. f_equal. auto.
Qed.

End Margin.

(** ** The theorems at work on the example collaborators *)

(** [10px] when the allocator is out of room: the unit sub-parser has moved
    past the token, the allocation is refused, [*ctx] is back at 0. *)
Lemma failure_restores_ctx_witness :
  let w := {| ctx := 0; result := None; alloc_log := [4] |} in
  let w' := {| ctx := 0; result := None; alloc_log := [4; 12] |} in
  parse_margin_side (E := ex_collaborators) ex_tight [ex_10px] 0x36 w
  = Some (CSS_NOMEM, w')
  /\ u_ctx (ex_parse_unit_specifier ex_tight [ex_10px] 0 0) = 1
  /\ ctx w' = ctx w.
Proof.
  intros w w'. split; [vm_compute; reflexivity|].
  split; [vm_compute; reflexivity|].
  apply (failure_restores_ctx (E := ex_collaborators) ex_tight [ex_10px] 0x36
           w w' CSS_NOMEM).
  - left. vm_compute. reflexivity.
  - discriminate.
Defined.

(** [10px]: twelve bytes are asked for and twelve are written. *)
Lemma success_buffer_exact_size_witness :
  let w' :=
    {| ctx := 1;
       result :=
         Some {| bytecode :=
                   map Byte [54; 0; 0; 2; 0; 40; 0; 0; 0; 0; 0; 0];
                 size := 12 |};
       alloc_log := [12] |} in
  parse_margin_side (E := ex_collaborators) ex_roomy [ex_10px] 0x36
    (ex_world 0) = Some (CSS_OK, w')
  /\ exists style,
       result w' = Some style
       /\ alloc_log w' = alloc_log (ex_world 0) ++ [size style]
       /\ Z.of_nat (List.length (bytecode style)) = size style.
Proof.
  intros w'.
  assert (H : parse_margin_side (E := ex_collaborators) ex_roomy [ex_10px]
                0x36 (ex_world 0) = Some (CSS_OK, w'))
    by (vm_compute; reflexivity).
  split; [exact H|].
  destruct (success_buffer_exact_size (E := ex_collaborators) ex_roomy
              [ex_10px] 0x36 (ex_world 0) w' H)
    as (w1 & l & style & _ & Hres & Hlog & _ & _ & Hlen).
  exists style. auto.
Defined.

(** [5deg]: the unit sub-parser accepts it, the margin parser does not. *)
Lemma non_spatial_unit_rejected_witness :
  u_error (ex_parse_unit_specifier ex_roomy [ex_5deg] 0 0) = CSS_OK
  /\ parse_margin_side (E := ex_collaborators) ex_roomy [ex_5deg] 0x36
       (ex_world 0) = Some (CSS_INVALID, ex_world 0).
Proof.
  split; [vm_compute; reflexivity|].
  apply (non_spatial_unit_rejected (E := ex_collaborators) ex_roomy [ex_5deg]
           0x36 (ex_world 0) ex_5deg).
  - vm_compute. reflexivity.
  - vm_compute. reflexivity.
  - vm_compute. reflexivity.
  - vm_compute. reflexivity.
  - left. vm_compute. discriminate.
Defined.

(** [inherit]: one alternative, and a style of four bytes. *)
Lemma grammar_branches_exclusive_witness :
  let w' :=
    {| ctx := 1;
       result := Some {| bytecode := map Byte [54; 8; 0; 0]; size := 4 |};
       alloc_log := [4] |} in
  parse_margin_side (E := ex_collaborators) ex_roomy [ex_inherit] 0x36
    (ex_world 0) = Some (CSS_OK, w')
  /\ exists l style,
       (exists! b,
          took (E := ex_collaborators) ex_roomy ex_inherit
            (ex_parse_unit_specifier ex_roomy [ex_inherit] 0 0) l b)
       /\ result w' = Some style
       /\ bytecode style
          = map Byte (instruction (E := ex_collaborators) (uint16 0x36) l).
Proof.
  intros w'.
  assert (H : parse_margin_side (E := ex_collaborators) ex_roomy [ex_inherit]
                0x36 (ex_world 0) = Some (CSS_OK, w'))
    by (vm_compute; reflexivity).
  split; [exact H|].
  destruct (grammar_branches_exclusive (E := ex_collaborators) ex_roomy
              [ex_inherit] 0x36 (ex_world 0) w' H)
    as (token & l & style & Hpeek & Hb & Hres & Hbytes & _ & _).
  injection Hpeek as <-.
  exists l, style. auto.
Defined.

(** [none] is no keyword of the margin grammar and no dimension: the
    [CSS_INVALID] of the unit sub-parser is what the caller gets. *)
Lemma failure_kinds_witness :
  parse_margin_side (E := ex_collaborators) ex_roomy [ex_none] 0x36
    (ex_world 0) = Some (CSS_INVALID, ex_world 0)
  /\ (CSS_INVALID = CSS_INVALID \/ CSS_INVALID = CSS_NOMEM)
  /\ CSS_INVALID = u_error (ex_parse_unit_specifier ex_roomy [ex_none] 0 0).
Proof.
  assert (H : parse_margin_side (E := ex_collaborators) ex_roomy [ex_none]
                0x36 (ex_world 0) = Some (CSS_INVALID, ex_world 0))
    by (vm_compute; reflexivity).
  split; [exact H|].
  destruct (failure_kinds (E := ex_collaborators) ex_roomy [ex_none] 0x36
              (ex_world 0) (ex_world 0) CSS_INVALID) as (Hkind & Hpass).
  - right; left. vm_compute. reflexivity.
  - exact H.
  - discriminate.
  - split; [exact Hkind|].
    apply (Hpass ex_none).
    + vm_compute. reflexivity.
    + vm_compute. reflexivity.
    + vm_compute. reflexivity.
    + vm_compute. discriminate.
Defined.

(** [inherit], starting at the second token of the vector. *)
Lemma inherit_keyword_compiles_witness :
  parse_margin_side (E := ex_collaborators) ex_roomy [ex_10px; ex_inherit]
    0x36 (ex_world 1)
  = Some (CSS_OK,
          {| ctx := 2;
             result :=
               Some {| bytecode := map Byte [54; 8; 0; 0]; size := 4 |};
             alloc_log := [4] |})
  /\ Z.land 2 2 <> 0.
Proof.
  apply (inherit_keyword_compiles (E := ex_collaborators) ex_roomy
           [ex_10px; ex_inherit] 0x36 (ex_world 1) ex_inherit).
  - vm_compute. discriminate.
  - vm_compute. reflexivity.
  - reflexivity.
  - reflexivity.
  - reflexivity.
Defined.

(** The position one past the last token. *)
Lemma no_token_invalid_witness :
  parse_margin_side (E := ex_collaborators) ex_roomy [ex_auto] 0x36
    (ex_world 1) = Some (CSS_INVALID, ex_world 1).
Proof.
  apply (no_token_invalid (E := ex_collaborators) ex_roomy [ex_auto] 0x36
           (ex_world 1)).
  vm_compute. reflexivity.
Defined.

(** C8, as stated, fails: the same parsing context, the same vector
    [inherit], the same position 0 and the same opcode, called twice in a
    row on a stylesheet with room for one style. The first call returns
    [CSS_OK], the second [CSS_NOMEM]. *)
Lemma parse_twice_differs :
  let w1 :=
    {| ctx := 1;
       result := Some {| bytecode := map Byte [54; 8; 0; 0]; size := 4 |};
       alloc_log := [4] |} in
  parse_margin_side (E := ex_collaborators) ex_tight [ex_inherit] 0x36
    (ex_world 0) = Some (CSS_OK, w1)
  /\ ctx (set_ctx 0 w1) = ctx (ex_world 0)
  /\ parse_margin_side (E := ex_collaborators) ex_tight [ex_inherit] 0x36
       (set_ctx 0 w1)
     = Some (CSS_NOMEM,
             {| ctx := 0; result := result w1; alloc_log := [4; 4] |}).
Proof.
  intros w1. repeat split; vm_compute; reflexivity.
Qed.

(** [inherit] parsed twice in a row from position 0, on a stylesheet whose
    allocator always has four bytes but grants twelve only when nothing has
    been allocated yet: the second call starts from what the first left in
    [*result] and in the allocator, and the request of four bytes is granted
    both times. *)
Lemma deterministic_given_allocator_answer_witness :
  let c :=
    {| sheet :=
         {| alloc := fun asked n =>
                       (n =? 4)
                       || match asked with [] => true | _ => false end |};
       strings := ex_strings |} in
  let w1 := ex_world 0 in
  let w2 :=
    {| ctx := 0;
       result := Some {| bytecode := map Byte [54; 8; 0; 0]; size := 4 |};
       alloc_log := [4] |} in
  alloc (sheet c) (alloc_log w1) 12 <> alloc (sheet c) (alloc_log w2) 12
  /\ exists e w1' w2',
       parse_margin_side (E := ex_collaborators) c [ex_inherit] 0x36 w1
       = Some (e, w1')
       /\ parse_margin_side (E := ex_collaborators) c [ex_inherit] 0x36 w2
          = Some (e, w2')
       /\ ctx w1' = ctx w2'
       /\ (e = CSS_OK -> result w1' = result w2' /\ result w1' <> None).
Proof.
  intros c w1 w2. split; [vm_compute; discriminate|].
  apply (deterministic_given_allocator_answer (E := ex_collaborators)
           c [ex_inherit] 0x36 w1 w2).
  - reflexivity.
  - intros a l H. vm_compute in H. injection H as _ <-.
    vm_compute. reflexivity.
Defined.

(** [none] at a caller whose [*result] already points to a style. *)
Lemma invalid_leaves_result_untouched_witness :
  let w :=
    {| ctx := 0;
       result := Some {| bytecode := [Byte 7]; size := 1 |};
       alloc_log := [1] |} in
  parse_margin_left (E := ex_collaborators) ex_roomy [ex_none] w
  = Some (CSS_INVALID, w)
  /\ result w = Some {| bytecode := [Byte 7]; size := 1 |}
  /\ alloc_log w = [1].
Proof.
  intros w.
  assert (H : parse_margin_left (E := ex_collaborators) ex_roomy [ex_none] w
              = Some (CSS_INVALID, w))
    by (vm_compute; reflexivity).
  split; [exact H|].
  apply (invalid_leaves_result_untouched (E := ex_collaborators) ex_roomy
           [ex_none] 0 w w).
  right; right; right; right. exact H.
Defined.

(** ** The remaining scenarios of the margin grammar, run on the examples *)

(** [auto]: one token consumed, a header word with no flags and value
    [MARGIN_AUTO], no payload. *)
Example auto_keyword_runs :
  parse_margin_top (E := ex_collaborators) ex_roomy [ex_auto] (ex_world 0)
  = Some (CSS_OK,
          {| ctx := 1;
             result :=
               Some {| bytecode := map Byte [54; 0; 0; 0]; size := 4 |};
             alloc_log := [4] |}).
Proof. vm_compute. reflexivity. Qed.

(** [10px] for margin-bottom: header, then 10.0 in fixed point, then the
    pixel unit. *)
Example ten_pixels_runs :
  parse_margin_bottom (E := ex_collaborators) ex_roomy [ex_10px] (ex_world 0)
  = Some (CSS_OK,
          {| ctx := 1;
             result :=
               Some {| bytecode :=
                         map Byte [51; 0; 0; 2; 0; 40; 0; 0; 0; 0; 0; 0];
                       size := 12 |};
             alloc_log := [12] |}).
Proof. vm_compute. reflexivity. Qed.

(** An empty vector. *)
Example empty_vector_runs :
  parse_margin_right (E := ex_collaborators) ex_roomy [] (ex_world 0)
  = Some (CSS_INVALID, ex_world 0).
Proof. vm_compute. reflexivity. Qed.

(** ** The further properties at work on the example collaborators *)

(** [auto] after a first token. *)
Lemma auto_keyword_compiles_witness :
  parse_margin_side (E := ex_collaborators) ex_roomy [ex_none; ex_auto] 0x33
    (ex_world 1)
  = Some (CSS_OK,
          {| ctx := 2;
             result :=
               Some {| bytecode := map Byte [51; 0; 0; 0]; size := 4 |};
             alloc_log := [4] |}).
Proof.
  apply (auto_keyword_compiles (E := ex_collaborators) ex_roomy
           [ex_none; ex_auto] 0x33 (ex_world 1) ex_auto).
  - vm_compute. discriminate.
  - vm_compute. reflexivity.
  - vm_compute. reflexivity.
  - reflexivity.
  - reflexivity.
  - reflexivity.
Defined.

(** [10px] for margin-left. *)
Lemma quantity_compiles_witness :
  parse_margin_side (E := ex_collaborators) ex_roomy [ex_10px] 0x34
    (ex_world 0)
  = Some (CSS_OK,
          {| ctx := 1;
             result :=
               Some {| bytecode :=
                         map Byte [52; 0; 0; 2; 0; 40; 0; 0; 0; 0; 0; 0];
                       size := 12 |};
             alloc_log := [12] |}).
Proof.
  apply (quantity_compiles (E := ex_collaborators) ex_roomy [ex_10px] 0x34
           (ex_world 0) ex_10px); vm_compute; reflexivity.
Defined.

(** [auto] is accepted: the auto alternative runs and four bytes are
    granted. *)
Lemma accepted_iff_witness :
  exists w',
    parse_margin_side (E := ex_collaborators) ex_roomy [ex_auto] 0x36
      (ex_world 0) = Some (CSS_OK, w').
Proof.
  apply (accepted_iff (E := ex_collaborators) ex_roomy [ex_auto] 0x36
           (ex_world 0)).
  exists ex_auto,
    {| L.flags := 0; L.value := 0; L.length := 0; L.unit := 0 |}, Auto.
  split; [vm_compute; reflexivity|].
  split; [|vm_compute; reflexivity].
  cbn. repeat split; vm_compute; reflexivity.
Defined.

(** [5deg] is invalid: the sub-parser succeeds with an angle. *)
Lemma invalid_iff_witness :
  exists w',
    parse_margin_side (E := ex_collaborators) ex_roomy [ex_5deg] 0x36
      (ex_world 0) = Some (CSS_INVALID, w').
Proof.
  apply (invalid_iff (E := ex_collaborators) ex_roomy [ex_5deg] 0x36
           (ex_world 0)).
  right. exists ex_5deg.
  split; [vm_compute; reflexivity|].
  split; [vm_compute; reflexivity|].
  split; [vm_compute; reflexivity|].
  right. split; vm_compute; reflexivity.
Defined.

(** [10px] on a stylesheet that has no room left. *)
Lemma refused_allocation_restores_witness :
  let w := {| ctx := 0; result := None; alloc_log := [4] |} in
  parse_margin_side (E := ex_collaborators) ex_tight [ex_10px] 0x36 w
  = Some (CSS_NOMEM, {| ctx := 0; result := None; alloc_log := [4; 12] |}).
Proof.
  intros w.
  apply (refused_allocation_restores (E := ex_collaborators) ex_tight
           [ex_10px] 0x36 w ex_10px
           {| L.flags := 0; L.value := 0x80;
              L.length := 10240; L.unit := 0 |} Quantity).
  - vm_compute. reflexivity.
  - cbn. repeat split; vm_compute; reflexivity.
  - vm_compute. reflexivity.
Defined.

(** [inherit]: one request, of four bytes. *)
Lemma at_most_one_request_witness :
  let w' :=
    {| ctx := 1;
       result := Some {| bytecode := map Byte [54; 8; 0; 0]; size := 4 |};
       alloc_log := [4] |} in
  (alloc_log w' = alloc_log (ex_world 0) /\ CSS_OK <> CSS_OK)
  \/ exists n,
       (n = 4 \/ n = 12)
       /\ alloc_log w' = alloc_log (ex_world 0) ++ [n]
       /\ (CSS_OK = CSS_OK \/ CSS_OK = CSS_NOMEM).
Proof.
  intros w'.
  apply (at_most_one_request (E := ex_collaborators) ex_roomy [ex_inherit]
           0x36 (ex_world 0) w' CSS_OK).
  vm_compute. reflexivity.
Defined.

(** [inherit] followed by different tokens. *)
Lemma keyword_reads_one_token_witness :
  parse_margin_side (E := ex_collaborators) ex_roomy [ex_inherit; ex_5deg]
    0x36 (ex_world 0)
  = parse_margin_side (E := ex_collaborators) ex_roomy
      [ex_inherit; ex_none; ex_10px] 0x36 (ex_world 0).
Proof.
  apply (keyword_reads_one_token (E := ex_collaborators) ex_roomy
           [ex_inherit; ex_5deg] [ex_inherit; ex_none; ex_10px] 0x36
           (ex_world 0) ex_inherit).
  - vm_compute. reflexivity.
  - vm_compute. reflexivity.
  - left. vm_compute. reflexivity.
Defined.

(** A refused allocation at a caller whose [*result] points to a style. *)
Lemma failure_keeps_result_witness :
  let w :=
    {| ctx := 0;
       result := Some {| bytecode := [Byte 7]; size := 1 |};
       alloc_log := [1] |} in
  let w' :=
    {| ctx := 0;
       result := Some {| bytecode := [Byte 7]; size := 1 |};
       alloc_log := [1; 4] |} in
  parse_margin_side (E := ex_collaborators) ex_tight [ex_auto] 0x36 w
  = Some (CSS_NOMEM, w')
  /\ result w' = result w.
Proof.
  intros w w'.
  assert (H : parse_margin_side (E := ex_collaborators) ex_tight [ex_auto]
                0x36 w = Some (CSS_NOMEM, w'))
    by (vm_compute; reflexivity).
  split; [exact H|].
  apply (failure_keeps_result (E := ex_collaborators) ex_tight [ex_auto] 0x36
           w w' CSS_NOMEM H).
  discriminate.
Defined.

(** [10px] parsed twice, at two positions of two vectors: the same style,
    hence the same magnitude. *)
Lemma equal_styles_equal_instructions_witness :
  uint32 10240 = uint32 10240 /\ uint32 0 = uint32 0.
Proof.
  pose (w1' := {| ctx := 1;
                  result :=
                    Some {| bytecode :=
                              map Byte [54; 0; 0; 2; 0; 40; 0; 0; 0; 0; 0; 0];
                            size := 12 |};
                  alloc_log := [12] |}).
  pose (w2' := {| ctx := 2;
                  result :=
                    Some {| bytecode :=
                              map Byte [54; 0; 0; 2; 0; 40; 0; 0; 0; 0; 0; 0];
                            size := 12 |};
                  alloc_log := [12] |}).
  pose (l := {| L.flags := 0; L.value := 0x80;
                L.length := 10240; L.unit := 0 |}).
  apply (equal_styles_equal_instructions (E := ex_collaborators)
           ex_roomy ex_roomy [ex_10px] [ex_none; ex_10px] 0x36 0x36
           (ex_world 0) (ex_world 1) w1' w2' (ex_world 1) (ex_world 2) l l).
  - vm_compute. reflexivity.
  - vm_compute. reflexivity.
  - vm_compute. reflexivity.
  - vm_compute. reflexivity.
  - reflexivity.
  - vm_compute. reflexivity.
Defined.
